(** * migrate-to-deployment: the migration orchestrator of [main.go]

    A shallow embedding of [MigrateOptions] and of its methods [Validate],
    [Complete], [progress] and [Run], together with the option record that
    [NewMigrateCommand] builds.  Go code that returns [error] and may panic
    is written in a small state-and-failure monad; the API clients, which
    are interfaces of client-go, are records of operations over an abstract
    cluster state. *)

From stdpp Require Import base option list strings.

Set Default Proof Using "Type".

(** ** Errors and run-time panics *)

(** Values of Go's [error] that the program meets: the one it builds itself
    with [fmt.Errorf], and the failure classes of the API server. *)
Inductive error : Type :=
| Errorf (msg : string)
| NotFound
| AlreadyExists
| Conflict
| UnsupportedStrategy
| Transport
| ValidationError.

(** Places of [main.go] at which a nil value can be used. *)
Inductive site : Type :=
| AtOutput            (* fmt.Fprintf(m.Output, ...) *)
| AtOsAppsClient      (* m.OsAppsClient.DeploymentConfigs(...) *)
| AtAppsClient        (* m.AppsClient.Deployments(...) *)
| AtCoreClient        (* m.CoreClient.ReplicationControllers(...) *)
| AtConvertCall       (* m.convert(dc, deployment) *)
| AtMigrateHistoryCall(* m.migrateHistory(newDeployment, rcs.Items) *)
| AtDeployment.       (* deployment.Spec / deployment.Namespace *)

(** Go run-time panics. *)
Inductive panic : Type :=
| NilDereference (s : site)
| SliceBoundsOutOfRange
| Raised (msg : string).

Inductive result (A : Type) : Type :=
| Ok (a : A)
| Err (e : error)
| Panic (p : panic).
Arguments Ok {A} a.
Arguments Err {A} e.
Arguments Panic {A} p.

(** ** API objects, restricted to the fields [main.go] touches *)

Record DeploymentConfig : Type := {
  dcNamespace : string;
  dcName : string;
  dcSpecPaused : bool;
  dcSpecReplicas : Z
}.

Record Deployment : Type := {
  dNamespace : string;
  dName : string;
  dSpecPaused : bool;
  dSpecReplicas : Z
}.

Record ReplicationController : Type := {
  rcNamespace : string;
  rcName : string;
  rcLabels : list (string * string)
}.

(** [dc.Spec.Paused = true] *)
Definition dc_set_paused (dc : DeploymentConfig) : DeploymentConfig :=
  {| dcNamespace := dcNamespace dc; dcName := dcName dc;
     dcSpecPaused := true; dcSpecReplicas := dcSpecReplicas dc |}.

Definition d_set_paused (d : Deployment) : Deployment :=
  {| dNamespace := dNamespace d; dName := dName d;
     dSpecPaused := true; dSpecReplicas := dSpecReplicas d |}.

(** A [*appsv1.Deployment]: nil, or the address of a heap cell. *)
Definition ptr : Type := option nat.
Definition nil_ptr : ptr := None.

(** [labels.SelectorFromValidatedSet(labels.Set{key: name}).String()] *)
Definition configNameLabel : string := "openshift.io/deployment-config.name".
Definition selectorString (name : string) : string :=
  configNameLabel +:+ "=" +:+ name.

(** What [progress] prints, before rendering by [fmt.Sprintf] and the
    terminal colours. *)
Inductive message : Type :=
| Processing (ns name : string)
| Pausing (ns name : string)
| Converting (ns name : string)
| Creating (ns name : string)
| FoundControllers (n : nat) (ns name : string)
| ControllerName (name : string).

(** What the orchestrator does to the outside, in the order it does it. *)
Inductive event : Type :=
| Printed (msg : message)
| CallGet (ns name : string)
| CallUpdate (ns : string) (dc : DeploymentConfig)
| CallConvert (dc : DeploymentConfig) (target : ptr)
| CallCreate (ns : string) (d : Deployment)
| CallList (ns selector : string)
| CallMigrateHistory (d : Deployment) (rcs : list ReplicationController).

(** The writer behind [m.Output]. *)
Inductive Writer : Type := Stdout | Stderr.

Section Orchestrator.

(** The state of the cluster behind the API clients. *)
Context {W : Type}.

(** The methods of the three client interfaces that [main.go] calls. *)
Record OsAppsV1Interface : Type := {
  DeploymentConfigs_Get :
    string → string → W → (error + DeploymentConfig) * W;
  DeploymentConfigs_Update :
    string → DeploymentConfig → W → (error + DeploymentConfig) * W
}.

Record AppsV1Interface : Type := {
  Deployments_Create : string → Deployment → W → (error + Deployment) * W
}.

Record CoreV1Interface : Type := {
  ReplicationControllers_List :
    string → string → W → (error + list ReplicationController) * W
}.

(** Memory a Go function value can reach: the cluster (through whatever
    clients it closes over) and the heap of [Deployment] objects. *)
Record World : Type := {
  cluster : W;
  heap : list Deployment
}.

(** The type of the [convert] field, a function of a [*DeploymentConfig]
    and a [*Deployment] that returns [error]: the
    pointers are passed by value; the function may change the config it is
    given (returned here) and the heap, and returns nil ([Ok]), an error
    or panics. *)
Definition converter : Type :=
  DeploymentConfig → ptr → World → result DeploymentConfig * World.

(** The type of the [migrateHistory] field, a function of a [*Deployment]
    and a slice of replication controllers that returns [error]. *)
Definition migrator : Type :=
  Deployment → list ReplicationController → World → result () * World.

Record MigrateOptions : Type := {
  Output : option Writer;
  DeploymentConfigNames : list string;
  Namespace : string;
  OsAppsClient : option OsAppsV1Interface;
  AppsClient : option AppsV1Interface;
  CoreClient : option CoreV1Interface;
  kubeconfig : string;
  convert : option converter;
  migrateHistory : option migrator
}.

(** Assignments to fields of [*m]. *)
Definition withNames (m : MigrateOptions) (names : list string) : MigrateOptions :=
  {| Output := Output m; DeploymentConfigNames := names;
     Namespace := Namespace m; OsAppsClient := OsAppsClient m;
     AppsClient := AppsClient m; CoreClient := CoreClient m;
     kubeconfig := kubeconfig m; convert := convert m;
     migrateHistory := migrateHistory m |}.

Definition withFlags (m : MigrateOptions) (kube ns : string) : MigrateOptions :=
  {| Output := Output m; DeploymentConfigNames := DeploymentConfigNames m;
     Namespace := ns; OsAppsClient := OsAppsClient m;
     AppsClient := AppsClient m; CoreClient := CoreClient m;
     kubeconfig := kube; convert := convert m;
     migrateHistory := migrateHistory m |}.

Definition withClients (m : MigrateOptions) (apps : option AppsV1Interface)
    (osapps : option OsAppsV1Interface) (core : option CoreV1Interface)
  : MigrateOptions :=
  {| Output := Output m; DeploymentConfigNames := DeploymentConfigNames m;
     Namespace := Namespace m; OsAppsClient := osapps;
     AppsClient := apps; CoreClient := core;
     kubeconfig := kubeconfig m; convert := convert m;
     migrateHistory := migrateHistory m |}.

(** ** The monad of orchestrator code *)

Definition State : Type := World * list event.

Definition Go (A : Type) : Type := State → result A * State.

Definition ret {A} (a : A) : Go A := λ s, (Ok a, s).

Definition bind {A B} (c : Go A) (k : A → Go B) : Go B :=
  λ s, match c s with
       | (Ok a, s') => k a s'
       | (Err e, s') => (Err e, s')
       | (Panic p, s') => (Panic p, s')
       end.

Definition crash {A} (p : panic) : Go A := λ s, (Panic p, s).

Definition emit (ev : event) : Go () := λ s, (Ok (), (s.1, s.2 ++ [ev])).

#[export] Instance go_ret : MRet Go := @ret.
#[export] Instance go_bind : MBind Go := λ A B k c, bind c k.

(** A call of a client method: the call is recorded, the cluster moves to
    the state the method leaves, and [if err != nil { return err }]
    follows. *)
Definition apiCall {A} (ev : event) (op : W → (error + A) * W) : Go A :=
  λ s, let '(r, w') := op (cluster s.1) in
       let s' := ({| cluster := w'; heap := heap s.1 |}, s.2 ++ [ev]) in
       match r with
       | inl e => (Err e, s')
       | inr a => (Ok a, s')
       end.

(** A call of a function value on the world. *)
Definition worldCall {A} (f : World → result A * World) : Go A :=
  λ s, let '(r, w') := f s.1 in (r, (w', s.2)).

(** The object behind a [*Deployment]; an address outside the heap does not
    arise in Go and is treated like nil. *)
Definition deref (h : list Deployment) (p : ptr) : option Deployment :=
  l ← p; h !! l.

(** Reading a field through [deployment]. *)
Definition load (p : ptr) : Go Deployment :=
  λ s, match deref (heap s.1) p with
       | None => (Panic (NilDereference AtDeployment), s)
       | Some d => (Ok d, s)
       end.

(** [deployment.Spec.Paused = true] *)
Definition storePaused (p : ptr) : Go () :=
  λ s, match p with
       | None => (Panic (NilDereference AtDeployment), s)
       | Some l =>
           match heap s.1 !! l with
           | None => (Panic (NilDereference AtDeployment), s)
           | Some d =>
               (Ok (), ({| cluster := cluster s.1;
                           heap := <[l := d_set_paused d]> (heap s.1) |}, s.2))
           end
       end.

(** ** The methods of [MigrateOptions] *)

(** [func (m *MigrateOptions) progress(message string)] *)
Definition progress (m : MigrateOptions) (msg : message) : Go () :=
  match Output m with
  | None => crash (NilDereference AtOutput)
  | Some _ => emit (Printed msg)
  end.

(** [m.OsAppsClient.DeploymentConfigs(m.Namespace).Get(name, ...)] *)
Definition getConfig (m : MigrateOptions) (name : string) : Go DeploymentConfig :=
  match OsAppsClient m with
  | None => crash (NilDereference AtOsAppsClient)
  | Some c => apiCall (CallGet (Namespace m) name)
                      (DeploymentConfigs_Get c (Namespace m) name)
  end.

(** [m.OsAppsClient.DeploymentConfigs(m.Namespace).Update(dc)] *)
Definition updateConfig (m : MigrateOptions) (dc : DeploymentConfig)
  : Go DeploymentConfig :=
  match OsAppsClient m with
  | None => crash (NilDereference AtOsAppsClient)
  | Some c => apiCall (CallUpdate (Namespace m) dc)
                      (DeploymentConfigs_Update c (Namespace m) dc)
  end.

(** [m.convert(dc, deployment)]: the value of [deployment] is copied into
    the call, the caller's variable is not reachable from the callee. *)
Definition callConvert (m : MigrateOptions) (dc : DeploymentConfig)
    (deployment : ptr) : Go DeploymentConfig :=
  match convert m with
  | None => crash (NilDereference AtConvertCall)
  | Some f => emit (CallConvert dc deployment);; worldCall (f dc deployment)
  end.

(** [m.AppsClient.Deployments(m.Namespace).Create(deployment)] *)
Definition createDeployment (m : MigrateOptions) (deployment : ptr)
  : Go Deployment :=
  match AppsClient m with
  | None => crash (NilDereference AtAppsClient)
  | Some c =>
      d ← load deployment;
      apiCall (CallCreate (Namespace m) d)
              (Deployments_Create c (Namespace m) d)
  end.

(** [m.CoreClient.ReplicationControllers(m.Namespace).List(...)] *)
Definition listControllers (m : MigrateOptions) (selector : string)
  : Go (list ReplicationController) :=
  match CoreClient m with
  | None => crash (NilDereference AtCoreClient)
  | Some c => apiCall (CallList (Namespace m) selector)
                      (ReplicationControllers_List c (Namespace m) selector)
  end.

(** [m.migrateHistory(newDeployment, rcs.Items)] *)
Definition callMigrateHistory (m : MigrateOptions) (newDeployment : Deployment)
    (items : list ReplicationController) : Go () :=
  match migrateHistory m with
  | None => crash (NilDereference AtMigrateHistoryCall)
  | Some f =>
      emit (CallMigrateHistory newDeployment items);;
      worldCall (f newDeployment items)
  end.

(** [for _, rc := range rcs.Items { m.progress(...rc.Name...) }] *)
Fixpoint progressEach (m : MigrateOptions) (items : list ReplicationController)
  : Go () :=
  match items with
  | [] => mret ()
  | rc :: rest => progress m (ControllerName (rcName rc));; progressEach m rest
  end.

(** *** [Run], one iteration of the loop, in the four blocks of its body *)

(** Lines 99-110: fetch the deployment config and pause it. *)
Definition Run_pause (m : MigrateOptions) (name : string) : Go DeploymentConfig :=
  progress m (Processing (Namespace m) name);;
  dc ← getConfig m name;
  progress m (Pausing (dcNamespace dc) (dcName dc));;
  let dc := dc_set_paused dc in
  updateConfig m dc;;
  mret dc.

(** Lines 112-118: declare [deployment] (nil) and call the converter.  The
    block leaves the config as the converter left it, and [deployment]. *)
Definition Run_convert (m : MigrateOptions) (dc : DeploymentConfig)
  : Go (DeploymentConfig * ptr) :=
  let deployment : ptr := nil_ptr in
  progress m (Converting (dcNamespace dc) (dcName dc));;
  dc ← callConvert m dc deployment;
  mret (dc, deployment).

(** Lines 120-127: pause the deployment and create it. *)
Definition Run_create (m : MigrateOptions) (deployment : ptr) : Go Deployment :=
  storePaused deployment;;
  d ← load deployment;
  progress m (Creating (dNamespace d) (dName d));;
  createDeployment m deployment.

(** Lines 136-142: what is printed when controllers were found. *)
Definition reportControllers (m : MigrateOptions) (deployment : ptr)
    (items : list ReplicationController) : Go () :=
  if bool_decide (0 < length items) then
    d ← load deployment;
    progress m (FoundControllers (length items) (dNamespace d) (dName d));;
    progressEach m items
  else mret ().

(** Lines 129-146: list the replication controllers of the config and hand
    them to the history migration. *)
Definition Run_history (m : MigrateOptions) (dc : DeploymentConfig)
    (deployment : ptr) (newDeployment : Deployment) : Go () :=
  let selector := selectorString (dcName dc) in
  items ← listControllers m selector;
  reportControllers m deployment items;;
  callMigrateHistory m newDeployment items.

(** The body of the loop. *)
Definition Run_body (m : MigrateOptions) (name : string) : Go () :=
  dc ← Run_pause m name;
  '(dc, deployment) ← Run_convert m dc;
  newDeployment ← Run_create m deployment;
  Run_history m dc deployment newDeployment.

(** [for _, name := range names { ... }; return nil] *)
Fixpoint Run_loop (m : MigrateOptions) (names : list string) : Go () :=
  match names with
  | [] => mret ()
  | name :: rest => Run_body m name;; Run_loop m rest
  end.

(** [func (m *MigrateOptions) Run() error] *)
Definition Run (m : MigrateOptions) : Go () :=
  Run_loop m (DeploymentConfigNames m).

(** *** [Validate] and [Complete] *)

Definition newline : string := String (Ascii.ascii_of_nat 10) EmptyString.

Definition usageError : error :=
  Errorf ("deployment config name(s) must be specified" +:+ newline).

(** [func (m *MigrateOptions) Validate(c *cobra.Command) error], a function
    of [os.Args]; the command [c] is not used.  [os.Args[1:]] panics on an
    empty [os.Args]. *)
Definition Validate (osArgs : list string) (m : MigrateOptions)
  : result MigrateOptions :=
  if bool_decide (length osArgs = 1) then Err usageError
  else match osArgs with
       | [] => Panic SliceBoundsOutOfRange
       | _ :: rest => Ok (withNames m rest)
       end.

(** What [Complete] calls in client-go. *)
Context {Config : Type}.
Variable BuildConfigFromFlags : string → string → error + Config.
Variable appsNewForConfig : Config → error + AppsV1Interface.
Variable osappsNewForConfig : Config → error + OsAppsV1Interface.
Variable coreNewForConfig : Config → error + CoreV1Interface.

(** [func (m *MigrateOptions) Complete(c *cobra.Command) error] *)
Definition Complete (m : MigrateOptions) : error + MigrateOptions :=
  match BuildConfigFromFlags "" (kubeconfig m) with
  | inl e => inl e
  | inr config =>
      match appsNewForConfig config with
      | inl e => inl e
      | inr apps =>
          match osappsNewForConfig config with
          | inl e => inl e
          | inr osapps =>
              match coreNewForConfig config with
              | inl e => inl e
              | inr core =>
                  inr (withClients m (Some apps) (Some osapps) (Some core))
              end
          end
      end
  end.

(** *** [NewMigrateCommand] *)

(** [func homeDir() string], a function of the environment. *)
Definition homeDir (getenv : string → string) : string :=
  let h := getenv "HOME" in
  if bool_decide (h ≠ "") then h else getenv "USERPROFILE".

(** [options := &MigrateOptions{Output: out}]: every other field has the
    zero value of its type. *)
Definition newOptions (out : Writer) : MigrateOptions :=
  {| Output := Some out; DeploymentConfigNames := [];
     Namespace := ""; OsAppsClient := None; AppsClient := None;
     CoreClient := None; kubeconfig := ""; convert := None;
     migrateHistory := None |}.

(** The two flags that [NewMigrateCommand] binds to fields of the options:
    each field holds the flag's value when the command line gives one, and
    the default otherwise. *)
Variable filepathJoin : list string → string.

Definition boundOptions (out : Writer) (getenv : string → string)
    (kubeconfigFlag namespaceFlag : option string) : MigrateOptions :=
  let options := newOptions out in
  let home := homeDir getenv in
  let kubeDefault :=
    if bool_decide (0 < String.length home)
    then filepathJoin [home; ".kube"; "config"] else "" in
  withFlags options (default kubeDefault kubeconfigFlag)
                    (default "" namespaceFlag).

(** How the process ends. *)
Inductive exit : Type :=
| ExitZero
| ExitOne (e : error)     (* ERROR: ... on stderr, then os.Exit(1) *)
| ExitPanic (p : panic).

(** The [Run] function of the cobra command: [Validate], [Complete], [Run],
    each followed by [os.Exit(1)] on an error. *)
Definition commandRun (options : MigrateOptions) (osArgs : list string)
    (s : State) : exit * State :=
  match Validate osArgs options with
  | Err e => (ExitOne e, s)
  | Panic p => (ExitPanic p, s)
  | Ok options =>
      match Complete options with
      | inl e => (ExitOne e, s)
      | inr options =>
          match Run options s with
          | (Ok _, s') => (ExitZero, s')
          | (Err e, s') => (ExitOne e, s')
          | (Panic p, s') => (ExitPanic p, s')
          end
      end
  end.

End Orchestrator.

Arguments Go : clear implicits.
Arguments World : clear implicits.
Arguments State : clear implicits.
Arguments MigrateOptions : clear implicits.
Arguments OsAppsV1Interface : clear implicits.
Arguments AppsV1Interface : clear implicits.
Arguments CoreV1Interface : clear implicits.
Arguments converter : clear implicits.
Arguments migrator : clear implicits.

(** ** Reading the log *)

(** The six operations of the workflow. *)
Inductive step : Type :=
| Fetch | Pause | Convert | Create | ListHistory | MigrateHistory.

#[export] Instance step_eq_dec : EqDecision step.
Proof. solve_decision. Defined.

Definition stepOf (ev : event) : option step :=
  match ev with
  | Printed _ => None
  | CallGet _ _ => Some Fetch
  | CallUpdate _ _ => Some Pause
  | CallConvert _ _ => Some Convert
  | CallCreate _ _ => Some Create
  | CallList _ _ => Some ListHistory
  | CallMigrateHistory _ _ => Some MigrateHistory
  end.

(** The operations of a log, in order, without what was printed. *)
Definition steps (evs : list event) : list step := omap stepOf evs.

Definition workflow : list step :=
  [Fetch; Pause; Convert; Create; ListHistory; MigrateHistory].

(** The names that were fetched, in the order of the calls. *)
Definition fetchedName (ev : event) : option string :=
  match ev with
  | CallGet _ name => Some name
  | _ => None
  end.

Definition fetched (evs : list event) : list string := omap fetchedName evs.

(** How often a step occurs. *)
Definition count (k : step) (evs : list event) : nat :=
  length (List.filter (λ ev, bool_decide (stepOf ev = Some k)) evs).

(** ** An in-memory cluster

    A stand-in for the API server, with the failure classes of the three
    collections: [Get] and [Update] of an absent config fail with
    [NotFound], [Create] of a present deployment fails with
    [AlreadyExists], [List] selects by label and never fails. *)

Record Cluster : Type := {
  configs : list DeploymentConfig;
  deployments : list Deployment;
  controllers : list ReplicationController
}.

Definition isConfig (ns name : string) (dc : DeploymentConfig) : bool :=
  String.eqb (dcNamespace dc) ns && String.eqb (dcName dc) name.

Definition isDeployment (ns name : string) (d : Deployment) : bool :=
  String.eqb (dNamespace d) ns && String.eqb (dName d) name.

Definition hasLabel (selector : string) (rc : ReplicationController) : bool :=
  existsb (λ kv, String.eqb (kv.1 +:+ "=" +:+ kv.2) selector) (rcLabels rc).

Definition memGet (ns name : string) (c : Cluster)
  : (error + DeploymentConfig) * Cluster :=
  match find (isConfig ns name) (configs c) with
  | Some dc => (inr dc, c)
  | None => (inl NotFound, c)
  end.

Definition memUpdate (ns : string) (dc : DeploymentConfig) (c : Cluster)
  : (error + DeploymentConfig) * Cluster :=
  if existsb (isConfig ns (dcName dc)) (configs c) then
    (inr dc,
     {| configs := map (λ old, if isConfig ns (dcName dc) old then dc else old)
                       (configs c);
        deployments := deployments c;
        controllers := controllers c |})
  else (inl NotFound, c).

Definition memCreate (ns : string) (d : Deployment) (c : Cluster)
  : (error + Deployment) * Cluster :=
  if existsb (isDeployment ns (dName d)) (deployments c) then
    (inl AlreadyExists, c)
  else
    (inr d,
     {| configs := configs c;
        deployments := deployments c ++ [d];
        controllers := controllers c |}).

Definition memList (ns selector : string) (c : Cluster)
  : (error + list ReplicationController) * Cluster :=
  (inr (List.filter (λ rc, String.eqb (rcNamespace rc) ns && hasLabel selector rc)
                    (controllers c)), c).

Definition memOsApps : OsAppsV1Interface Cluster :=
  {| DeploymentConfigs_Get := memGet; DeploymentConfigs_Update := memUpdate |}.
Definition memApps : AppsV1Interface Cluster :=
  {| Deployments_Create := memCreate |}.
Definition memCore : CoreV1Interface Cluster :=
  {| ReplicationControllers_List := memList |}.

(** *** The scenario of the end-to-end test: namespace [demo], config [web] *)

Definition web : DeploymentConfig :=
  {| dcNamespace := "demo"; dcName := "web";
     dcSpecPaused := false; dcSpecReplicas := 3 |}.

Definition webSnapshot (name : string) : ReplicationController :=
  {| rcNamespace := "demo"; rcName := name;
     rcLabels := [(configNameLabel, "web")] |}.

Definition demoCluster : Cluster :=
  {| configs := [web]; deployments := [];
     controllers := [webSnapshot "web-1"; webSnapshot "web-2"] |}.

(** The same cluster before [web] was ever rolled out. *)
Definition freshCluster : Cluster :=
  {| configs := [web]; deployments := []; controllers := [] |}.

Definition start (c : Cluster) : State Cluster :=
  ({| cluster := c; heap := [] |}, []).

(** A converter that builds the deployment of a config: it points its own
    copy of the target at a new object and returns nil. *)
Definition deploymentOf (dc : DeploymentConfig) : Deployment :=
  {| dNamespace := dcNamespace dc; dName := dcName dc;
     dSpecPaused := false; dSpecReplicas := dcSpecReplicas dc |}.

Definition buildingConverter : converter Cluster :=
  λ dc _ w, (Ok dc, {| cluster := cluster w;
                       heap := heap w ++ [deploymentOf dc] |}).

(** A converter that rejects every config. *)
Definition rejectingConverter : converter Cluster :=
  λ _ _ w, (Err UnsupportedStrategy, w).

(** A history migration that has nothing to do. *)
Definition idleMigrator : migrator Cluster := λ _ _ w, (Ok (), w).

(** Options as [Complete] leaves them, with the two function fields given. *)
Definition demoOptions (names : list string)
    (cv : option (converter Cluster)) (mh : option (migrator Cluster))
  : MigrateOptions Cluster :=
  {| Output := Some Stdout; DeploymentConfigNames := names;
     Namespace := "demo"; OsAppsClient := Some memOsApps;
     AppsClient := Some memApps; CoreClient := Some memCore;
     kubeconfig := ""; convert := cv; migrateHistory := mh |}.

(** The run of the scenario, with a converter and a history migration
    that both succeed. *)
Definition webOptions : MigrateOptions Cluster :=
  demoOptions ["web"] (Some buildingConverter) (Some idleMigrator).

Definition webRun : result () * State Cluster := Run webOptions (start demoCluster).

(** The cluster once [web] is paused. *)
Definition pausedCluster : Cluster :=
  {| configs := [dc_set_paused web]; deployments := [];
     controllers := controllers demoCluster |}.

(** *** The command line [migrate-to-deployment web]

    No flag is given, so the namespace is the empty string; the client
    constructors are those of the in-memory cluster. *)

Definition webUnqualified : DeploymentConfig :=
  {| dcNamespace := ""; dcName := "web";
     dcSpecPaused := false; dcSpecReplicas := 3 |}.

Definition unqualifiedCluster : Cluster :=
  {| configs := [webUnqualified]; deployments := []; controllers := [] |}.

Definition memBuildConfig : string → string → error + () := λ _ _, inr ().
Definition memNewApps : () → error + AppsV1Interface Cluster :=
  λ _, inr memApps.
Definition memNewOsApps : () → error + OsAppsV1Interface Cluster :=
  λ _, inr memOsApps.
Definition memNewCore : () → error + CoreV1Interface Cluster :=
  λ _, inr memCore.

Definition joinPath (parts : list string) : string :=
  match parts with
  | [] => ""
  | p :: ps => fold_left (λ acc q, acc +:+ "/" +:+ q) ps p
  end.

Definition noEnvironment : string → string := λ _, "".

(** *** Options and states off the path of the command *)

(** Options that [Complete] has not filled: the clients are nil. *)
Definition unwiredOptions : MigrateOptions Cluster :=
  withNames (newOptions Stdout) ["web"].

(** Options without a writer. *)
Definition mutedOptions : MigrateOptions Cluster :=
  {| Output := None; DeploymentConfigNames := ["web"];
     Namespace := "demo"; OsAppsClient := Some memOsApps;
     AppsClient := Some memApps; CoreClient := Some memCore;
     kubeconfig := ""; convert := None; migrateHistory := None |}.

(** The scenario with the deployment of [web] on the heap, at address 0. *)
Definition builtState : State Cluster :=
  ({| cluster := demoCluster; heap := [deploymentOf web] |}, []).

(** A cluster whose list call fails. *)
Definition brokenCore : CoreV1Interface Cluster :=
  {| ReplicationControllers_List := λ _ _ c, (inl Transport, c) |}.

Definition brokenOptions : MigrateOptions Cluster :=
  {| Output := Some Stdout; DeploymentConfigNames := ["web"];
     Namespace := "demo"; OsAppsClient := Some memOsApps;
     AppsClient := Some memApps; CoreClient := Some brokenCore;
     kubeconfig := ""; convert := None; migrateHistory := Some idleMigrator |}.

(** A loader that finds no configuration at the empty path. *)
Definition strictBuildConfig : string → string → error + () :=
  λ _ path, if bool_decide (path = "") then inl ValidationError else inr ().

(** The events of a log that are calls of a client go to namespace [ns]. *)
Definition inNamespace (ns : string) (ev : event) : Prop :=
  match ev with
  | CallGet ns' _ | CallUpdate ns' _ | CallCreate ns' _ | CallList ns' _ =>
      ns' = ns
  | _ => True
  end.

(** *** Further clusters for the scenario *)


(** A second config, [api], beside [web]. *)
Definition api : DeploymentConfig :=
  {| dcNamespace := "demo"; dcName := "api";
     dcSpecPaused := false; dcSpecReplicas := 1 |}.

Definition twoCluster : Cluster :=
  {| configs := [web; api]; deployments := []; controllers := [] |}.



Definition twoRun : result () * State Cluster :=
  Run (demoOptions ["web"; "api"] (Some buildingConverter) (Some idleMigrator))
      (start twoCluster).

(** ** The log of the first name

    What the iteration for [name] prints and calls up to the convert call
    when nothing stops it before: the config in the last four events is
    the one that [Get] returns in the state [s]. *)
Definition expectedLog {W} (m : MigrateOptions W) (name : string) (s : State W)
  : list event :=
  [Printed (Processing (Namespace m) name); CallGet (Namespace m) name]
  ++ match OsAppsClient m with
     | Some c =>
         match (DeploymentConfigs_Get c (Namespace m) name (cluster s.1)).1 with
         | inr dc0 =>
             [Printed (Pausing (dcNamespace dc0) (dcName dc0));
              CallUpdate (Namespace m) (dc_set_paused dc0);
              Printed (Converting (dcNamespace dc0) (dcName dc0));
              CallConvert (dc_set_paused dc0) nil_ptr]
         | inl _ => []
         end
     | None => []
     end.

(** ** A failing step

    [failsAt m name s e s']: in the iteration for [name] started in state
    [s], one of the calls returns the error [e], and [s'] is the state right
    after that call. *)
Inductive failsAt {W} (m : MigrateOptions W) (name : string) (s : State W)
  : error → State W → Prop :=
| FetchFails out c e w1 :
    Output m = Some out →
    OsAppsClient m = Some c →
    DeploymentConfigs_Get c (Namespace m) name (cluster s.1) = (inl e, w1) →
    failsAt m name s e
      ({| cluster := w1; heap := heap s.1 |},
       s.2 ++ [Printed (Processing (Namespace m) name);
               CallGet (Namespace m) name])
| PauseFails out c dc0 w1 e w2 :
    Output m = Some out →
    OsAppsClient m = Some c →
    DeploymentConfigs_Get c (Namespace m) name (cluster s.1) = (inr dc0, w1) →
    DeploymentConfigs_Update c (Namespace m) (dc_set_paused dc0) w1
      = (inl e, w2) →
    failsAt m name s e
      ({| cluster := w2; heap := heap s.1 |},
       s.2 ++ [Printed (Processing (Namespace m) name);
               CallGet (Namespace m) name;
               Printed (Pausing (dcNamespace dc0) (dcName dc0));
               CallUpdate (Namespace m) (dc_set_paused dc0)])
| ConvertFails out c cv dc0 w1 dc1 w2 e w3 :
    Output m = Some out →
    OsAppsClient m = Some c →
    convert m = Some cv →
    DeploymentConfigs_Get c (Namespace m) name (cluster s.1) = (inr dc0, w1) →
    DeploymentConfigs_Update c (Namespace m) (dc_set_paused dc0) w1
      = (inr dc1, w2) →
    cv (dc_set_paused dc0) nil_ptr {| cluster := w2; heap := heap s.1 |}
      = (Err e, w3) →
    failsAt m name s e
      (w3,
       s.2 ++ [Printed (Processing (Namespace m) name);
               CallGet (Namespace m) name;
               Printed (Pausing (dcNamespace dc0) (dcName dc0));
               CallUpdate (Namespace m) (dc_set_paused dc0);
               Printed (Converting (dcNamespace dc0) (dcName dc0));
               CallConvert (dc_set_paused dc0) nil_ptr]).

(** * Properties *)

Ltac go_unfold :=
  unfold Run_body, Run_pause, Run_convert, Run_create, Run_history,
    reportControllers, getConfig, updateConfig, callConvert, createDeployment, listControllers,
    callMigrateHistory, progress, apiCall, worldCall, storePaused, load,
    crash, emit, mbind, mret, go_bind, go_ret, bind, ret, nil_ptr in *.

Ltac go_case :=
  match goal with
  | |- context [match ?x with _ => _ end] =>
      lazymatch x with
      | context [match _ with _ => _ end] => fail
      | _ => let E := fresh "E" in destruct x eqn:E; simpl in *
      end
  end.

Section Facts.
Context {W : Type}.
Implicit Types (m : MigrateOptions W) (s : State W).

(** The write through [deployment] is reached with [deployment] nil: an
    iteration is the first two blocks followed by the panic. *)
Lemma Run_body_nil_write m name :
  ∀ s, Run_body m name s =
       (dc ← Run_pause m name;
        Run_convert m dc;;
        crash (NilDereference AtDeployment)) s.
Proof.
  intros s. go_unfold. simpl.
  repeat go_case; try reflexivity.
Qed.

(** What one iteration adds to the log: at most the first three operations
    of the workflow, in their order, and at most one fetch, of [name]; and
    it never returns nil. *)
Lemma Run_body_log m name s :
  ∃ evs, (Run_body m name s).2.2 = s.2 ++ evs
         ∧ steps evs `prefix_of` [Fetch; Pause; Convert]
         ∧ fetched evs `prefix_of` [name]
         ∧ (Run_body m name s).1 ≠ Ok ().
Proof.
  rewrite Run_body_nil_write. go_unfold. simpl.
  repeat go_case;
    (eexists; split;
     [ rewrite <- ?app_assoc; simpl; try reflexivity;
       symmetry; apply app_nil_r
     | split_and!; [ by eexists | by eexists | done ] ]).
Qed.

(** The whole loop: what it adds to the log, and that it returns nil only
    for the empty list of names. *)
Lemma Run_loop_log m names s :
  ∃ evs, (Run_loop m names s).2.2 = s.2 ++ evs
         ∧ steps evs `prefix_of` [Fetch; Pause; Convert]
         ∧ fetched evs `prefix_of` names
         ∧ ((Run_loop m names s).1 = Ok () → names = []).
Proof.
  destruct names as [|name rest].
  - exists []. simpl. rewrite app_nil_r.
    split_and!; [done | apply prefix_nil | done | done].
  - destruct (Run_body_log m name s) as (evs & Hlog & Hsteps & Hfetch & Hres).
    assert (Run_loop m (name :: rest) s = Run_body m name s) as ->.
    { simpl. unfold mbind, go_bind, bind.
      destruct (Run_body m name s) as [[[]| |] s1]; simpl in *; congruence. }
    exists evs. split_and!; [done | done | | done].
    destruct Hfetch as [k Hk]. destruct (fetched evs) as [|x [|y l]].
    + apply prefix_nil.
    + injection Hk as ->. apply prefix_cons, prefix_nil.
    + discriminate.
Qed.

(** Sequencing: the names after a prefix are processed in the state the
    prefix left, and only if it returned nil. *)
Lemma Run_loop_app m pre post s :
  Run_loop m (pre ++ post) s =
  match Run_loop m pre s with
  | (Ok _, s1) => Run_loop m post s1
  | other => other
  end.
Proof.
  revert s. induction pre as [|name pre IH]; intros s; [done|].
  simpl. unfold mbind, go_bind, bind.
  destruct (Run_body m name s) as [[[]| |] s1]; [apply IH | done | done].
Qed.

(** A failing step fails the iteration, in the state the step left. *)
Lemma Run_body_failsAt m name s e s' :
  failsAt m name s e s' → Run_body m name s = (Err e, s').
Proof.
  intros H. rewrite Run_body_nil_write.
  destruct H as [out c e w1 Hout Hc Hget
                |out c dc0 w1 e w2 Hout Hc Hget Hupd
                |out c cv dc0 w1 dc1 w2 e w3 Hout Hc Hcv Hget Hupd Hconv];
    go_unfold; simpl; rewrite ?Hout, ?Hc; simpl; rewrite ?Hget; simpl;
    rewrite ?Hout; simpl; rewrite ?Hupd; simpl; rewrite ?Hout, ?Hcv; simpl;
    rewrite ?Hconv; simpl; rewrite <- ?app_assoc; reflexivity.
Qed.

(** Conversely, an error of the loop is the error of a failing step of the
    first name: on this code no other call is reached. *)
Lemma Run_loop_error_inv m names s e s' :
  Run_loop m names s = (Err e, s') →
  ∃ name rest, names = name :: rest ∧ failsAt m name s e s'.
Proof.
  destruct names as [|name rest]; [discriminate|].
  intros Hrun. exists name, rest. split; [done|].
  assert (Run_body m name s = (Err e, s')) as Hbody.
  { simpl in Hrun. unfold mbind, go_bind, bind in Hrun.
    pose proof (Run_body_log m name s) as (_ & _ & _ & _ & Hne).
    destruct (Run_body m name s) as [[[]| |] s1]; simpl in *; congruence. }
  clear Hrun. rewrite Run_body_nil_write in Hbody.
  go_unfold. simpl in Hbody.
  destruct (Output m) as [out|] eqn:Hout; simpl in Hbody; [|discriminate].
  destruct (OsAppsClient m) as [c|] eqn:Hc; simpl in Hbody; [|discriminate].
  destruct (DeploymentConfigs_Get c (Namespace m) name (cluster s.1))
    as [[e1|dc0] w1] eqn:Hget; simpl in Hbody.
  { injection Hbody as <- <-. rewrite <- app_assoc. by eapply FetchFails. }
  destruct (DeploymentConfigs_Update c (Namespace m) (dc_set_paused dc0) w1)
    as [[e2|dc1] w2] eqn:Hupd; simpl in Hbody.
  { injection Hbody as <- <-. rewrite <- !app_assoc. by eapply PauseFails. }
  destruct (convert m) as [cv|] eqn:Hcv; simpl in Hbody; [|discriminate].
  destruct (cv (dc_set_paused dc0) None {| cluster := w2; heap := heap s.1 |})
    as [[dc2|e3|p] w3] eqn:Hconv; simpl in Hbody; try discriminate.
  injection Hbody as <- <-. rewrite <- !app_assoc. by eapply ConvertFails.
Qed.

(** The calls of each block, whatever the pointer it is entered with: the
    first block fetches and updates, the second converts, the third
    creates, the fourth lists and migrates; a block that returns nil has
    made all of its calls. *)
Lemma Run_pause_steps m name s :
  ∃ evs, (Run_pause m name s).2.2 = s.2 ++ evs
         ∧ steps evs `prefix_of` [Fetch; Pause]
         ∧ (∀ dc, (Run_pause m name s).1 = Ok dc → steps evs = [Fetch; Pause]).
Proof.
  go_unfold. simpl.
  repeat go_case;
    (eexists; split;
     [ rewrite <- ?app_assoc; simpl; try reflexivity;
       symmetry; apply app_nil_r
     | split; [ by eexists | by intros ? ] ]).
Qed.

Lemma Run_convert_steps m dc s :
  ∃ evs, (Run_convert m dc s).2.2 = s.2 ++ evs
         ∧ steps evs `prefix_of` [Convert]
         ∧ (∀ r, (Run_convert m dc s).1 = Ok r
                 → steps evs = [Convert] ∧ r.2 = nil_ptr).
Proof.
  go_unfold. simpl.
  repeat go_case;
    (eexists; split;
     [ rewrite <- ?app_assoc; simpl; try reflexivity;
       symmetry; apply app_nil_r
     | split; [ by eexists | by intros ? [= <-] ] ]).
Qed.

Lemma Run_create_steps m deployment s :
  ∃ evs, (Run_create m deployment s).2.2 = s.2 ++ evs
         ∧ steps evs `prefix_of` [Create]
         ∧ (∀ d, (Run_create m deployment s).1 = Ok d → steps evs = [Create]).
Proof.
  go_unfold. unfold deref. simpl.
  repeat go_case;
    (eexists; split;
     [ rewrite <- ?app_assoc; simpl; try reflexivity;
       symmetry; apply app_nil_r
     | split; [ by eexists | by intros ? ] ]).
Qed.

Lemma steps_app evs1 evs2 : steps (evs1 ++ evs2) = steps evs1 ++ steps evs2.
Proof. apply omap_app. Qed.

Lemma progressEach_log m items s :
  ∃ evs, (progressEach m items s).2 = (s.1, s.2 ++ evs) ∧ steps evs = [].
Proof.
  revert s. induction items as [|rc items IH]; intros s; simpl.
  { exists []. by rewrite app_nil_r, <- surjective_pairing. }
  unfold mbind, go_bind, bind, progress, crash, emit.
  destruct (Output m); simpl.
  - destruct (IH (s.1, s.2 ++ [Printed (ControllerName (rcName rc))]))
      as (evs & Hlog & Hsteps). simpl in Hlog.
    exists (Printed (ControllerName (rcName rc)) :: evs).
    split; [|done].
    destruct (progressEach m items _) as [[[]| |] s1]; simpl in *;
      by rewrite Hlog, <- app_assoc.
  - exists []. by rewrite app_nil_r, <- surjective_pairing.
Qed.

Lemma reportControllers_log m deployment items s :
  ∃ evs, (reportControllers m deployment items s).2 = (s.1, s.2 ++ evs)
         ∧ steps evs = [].
Proof.
  unfold reportControllers. case_bool_decide.
  2: { exists []. by rewrite app_nil_r, <- surjective_pairing. }
  unfold mbind, go_bind, bind, load, progress, crash, emit.
  destruct (deref (heap s.1) deployment) as [d|]; simpl.
  2: { exists []. by rewrite app_nil_r, <- surjective_pairing. }
  destruct (Output m); simpl.
  2: { exists []. by rewrite app_nil_r, <- surjective_pairing. }
  set (found := Printed (FoundControllers (length items) (dNamespace d) (dName d))).
  destruct (progressEach_log m items (s.1, s.2 ++ [found]))
    as (evs & Hlog & Hsteps). simpl in Hlog.
  exists (found :: evs). split; [|done].
  destruct (progressEach m items _) as [[[]| |] s1]; simpl in *;
    by rewrite Hlog, <- app_assoc.
Qed.

Lemma Run_history_steps m dc deployment newDeployment s :
  ∃ evs, (Run_history m dc deployment newDeployment s).2.2 = s.2 ++ evs
         ∧ steps evs `prefix_of` [ListHistory; MigrateHistory]
         ∧ ((Run_history m dc deployment newDeployment s).1 = Ok ()
            → steps evs = [ListHistory; MigrateHistory]).
Proof.
  unfold Run_history, listControllers, callMigrateHistory, apiCall, worldCall,
    crash, emit, mbind, go_bind, bind.
  destruct (CoreClient m) as [c|]; simpl.
  2: { exists []. rewrite app_nil_r. split_and!; [done | by eexists | done]. }
  destruct (ReplicationControllers_List _ _ _ _) as [[e|items] w1]; simpl.
  { eexists. split; [reflexivity|]. split_and!; [by eexists | done]. }
  set (listing := CallList (Namespace m) (selectorString (dcName dc))).
  destruct (reportControllers_log m deployment items
              ({| cluster := w1; heap := heap s.1 |}, s.2 ++ [listing]))
    as (evs & Hlog & Hsteps). simpl in Hlog.
  destruct (reportControllers m deployment items _) as [[[]|e|p] s1];
    simpl in *; subst s1.
  - destruct (migrateHistory m) as [f|]; simpl.
    + destruct (f newDeployment items _) as [r w2]. simpl.
      exists (listing :: evs ++ [CallMigrateHistory newDeployment items]).
      split; [by rewrite <- !app_assoc|].
      assert (steps (listing :: evs ++ [CallMigrateHistory newDeployment items])
              = [ListHistory; MigrateHistory]) as ->; [|done].
      change (listing :: ?l) with ([listing] ++ l).
      by rewrite !steps_app, Hsteps.
    + exists (listing :: evs). split; [by rewrite <- !app_assoc|].
      change (listing :: evs) with ([listing] ++ evs).
      rewrite steps_app, Hsteps. split; [by eexists | done].
  - exists (listing :: evs). split; [by rewrite <- !app_assoc|].
    change (listing :: evs) with ([listing] ++ evs).
    rewrite steps_app, Hsteps. split; [by eexists | done].
  - exists (listing :: evs). split; [by rewrite <- !app_assoc|].
    change (listing :: evs) with ([listing] ++ evs).
    rewrite steps_app, Hsteps. split; [by eexists | done].
Qed.

(** The create block on an allocated deployment: the object is paused on
    the heap, and it is the paused object that the create call receives;
    an error of that call is returned in the state the call left.  [Run]
    never gets here, see [Run_body_nil_write]: it enters the block with
    [deployment] nil. *)
Lemma Run_create_allocated m out c l d s :
  Output m = Some out →
  AppsClient m = Some c →
  heap s.1 !! l = Some d →
  Run_create m (Some l) s
  = apiCall (CallCreate (Namespace m) (d_set_paused d))
            (Deployments_Create c (Namespace m) (d_set_paused d))
      ({| cluster := cluster s.1; heap := <[l := d_set_paused d]> (heap s.1) |},
       s.2 ++ [Printed (Creating (dNamespace d) (dName d))]).
Proof.
  intros Hout Hc Hl. go_unfold. unfold deref. simpl.
  rewrite Hl, Hout, Hc. simpl.
  repeat (rewrite list_lookup_insert_eq by (by eapply lookup_lt_Some); simpl).
  reflexivity.
Qed.

(** ** The nil target (C1) *)


(** ** Errors of the first three steps *)

(** An error returned by one of the three calls that a run reaches is
    fatal to the run: when, in the
    iteration for [name], a call returns the error [e], the run over [name]
    and any later names returns [e] in exactly the state that call left
    (nothing is undone, nothing more is done: after a failing convert the
    cluster is as the pause update and the converter left it), and no later
    name is fetched. *)
Theorem Run_error_is_fatal m name rest s e s' :
  failsAt m name s e s' →
  Run_loop m (name :: rest) s = (Err e, s')
  ∧ (DeploymentConfigNames m = name :: rest → Run m s = (Err e, s'))
  ∧ fetched (drop (length s.2) s'.2) = [name].
Proof.
  intros Hfail.
  assert (Run_loop m (name :: rest) s = (Err e, s')) as Hloop.
  { simpl. unfold mbind, go_bind, bind.
    rewrite (Run_body_failsAt _ _ _ _ _ Hfail). reflexivity. }
  split_and!; [exact Hloop | intros Hnames; unfold Run; by rewrite Hnames |].
  destruct Hfail; simpl; rewrite drop_app_length; reflexivity.
Qed.

(** ** The history block on an empty list *)

(** In the history block taken by itself, when the list call returns no
    replication controller and no
    error, the block raises no error of its own: nothing is printed, and
    the history migration is called with the new deployment and the empty
    list; what the block returns is what that call returns. *)
Theorem Run_history_empty_list m c dc deployment newDeployment s w' :
  CoreClient m = Some c →
  ReplicationControllers_List c (Namespace m) (selectorString (dcName dc))
    (cluster s.1) = (inr [], w') →
  let listed :=
    ({| cluster := w'; heap := heap s.1 |},
     s.2 ++ [CallList (Namespace m) (selectorString (dcName dc))]) in
  Run_history m dc deployment newDeployment s
    = callMigrateHistory m newDeployment [] listed
  ∧ ∀ f, migrateHistory m = Some f →
         Run_history m dc deployment newDeployment s
         = let '(r, w'') := f newDeployment [] listed.1 in
           (r, (w'', listed.2 ++ [CallMigrateHistory newDeployment []])).
Proof.
  intros Hc Hlist listed.
  assert (Run_history m dc deployment newDeployment s
          = callMigrateHistory m newDeployment [] listed) as Hrun.
  { unfold Run_history, listControllers, apiCall, mbind, go_bind, bind.
    rewrite Hc. simpl. rewrite Hlist. reflexivity. }
  split; [exact Hrun|].
  intros f Hf. rewrite Hrun. unfold callMigrateHistory. rewrite Hf.
  unfold mbind, go_bind, bind, emit, worldCall. simpl.
  destruct (f newDeployment [] _) as [r w'']. reflexivity.
Qed.

(** ** Sequencing of the loop *)

(** The loop takes the names one after the other:
    the names fetched by a run, in the order of the calls, are an initial
    segment of the list; and the names after any initial segment are begun
    only when the loop over that segment has returned nil, in the state it
    left, and otherwise not at all. *)
Theorem Run_in_input_order m s :
  fetched (drop (length s.2) (Run m s).2.2) `prefix_of` DeploymentConfigNames m
  ∧ ∀ pre post, DeploymentConfigNames m = pre ++ post →
      Run m s = match Run_loop m pre s with
                | (Ok _, s1) => Run_loop m post s1
                | other => other
                end.
Proof.
  split.
  - unfold Run.
    destruct (Run_loop_log m (DeploymentConfigNames m) s)
      as (evs & -> & _ & Hfetch & _).
    by rewrite drop_app_length.
  - intros pre post Hnames. unfold Run. rewrite Hnames.
    apply Run_loop_app.
Qed.

(** ** Validation (C9) *)

(** C9.  [Validate] takes the names from [os.Args]: every token after the
    program name, flags and their values included, becomes a name, in
    order; the usage error is returned exactly when nothing follows the
    program name. *)
Theorem Validate_takes_raw_arguments m prog rest :
  Validate (prog :: rest) m
  = match rest with
    | [] => Err usageError
    | _ :: _ => Ok (withNames m rest)
    end
  ∧ DeploymentConfigNames (withNames m rest) = rest
  ∧ (Validate (prog :: rest) m = Err usageError ↔ rest = []).
Proof.
  unfold Validate. destruct rest as [|tok rest]; simpl.
  - split_and!; [done | done | done].
  - split_and!; [done | done | split; discriminate].
Qed.

End Facts.

(** ** The function fields (C2) *)

Section Command.
Context {W Config : Type}.
Variable BuildConfigFromFlags : string → string → error + Config.
Variable appsNewForConfig : Config → error + AppsV1Interface W.
Variable osappsNewForConfig : Config → error + OsAppsV1Interface W.
Variable coreNewForConfig : Config → error + CoreV1Interface W.
Variable filepathJoin : list string → string.

(** Neither the flags nor [Validate] nor [Complete] assign the two function
    fields. *)
Lemma Validate_keeps_functions osArgs (m m' : MigrateOptions W) :
  Validate osArgs m = Ok m' →
  convert m' = convert m ∧ migrateHistory m' = migrateHistory m
  ∧ Output m' = Output m ∧ Namespace m' = Namespace m.
Proof.
  unfold Validate. case_bool_decide; [discriminate|].
  destruct osArgs; [discriminate|]. by intros [= <-].
Qed.

Lemma Complete_keeps_functions (m m' : MigrateOptions W) :
  Complete BuildConfigFromFlags appsNewForConfig osappsNewForConfig
           coreNewForConfig m = inr m' →
  convert m' = convert m ∧ migrateHistory m' = migrateHistory m
  ∧ Output m' = Output m ∧ Namespace m' = Namespace m
  ∧ DeploymentConfigNames m' = DeploymentConfigNames m.
Proof.
  unfold Complete.
  repeat (case_match; [discriminate|]). by intros [= <-].
Qed.

(** C2.  The options that reach [Run] are those of [NewMigrateCommand]
    after the flags, [Validate] and [Complete]: their [convert] and
    [migrateHistory] fields are nil.  So when the list of names is not
    empty and the fetch and the pause update of the first name succeed,
    [Run] calls the nil function [m.convert]: the run, and the command,
    end in a panic at that call, right after the "converting" line is
    printed and before any convert call is made. *)
Theorem command_calls_nil_convert out getenv kubeconfigFlag namespaceFlag
    osArgs (o1 o2 : MigrateOptions W) :
  Validate osArgs
    (boundOptions filepathJoin out getenv kubeconfigFlag namespaceFlag)
    = Ok o1 →
  Complete BuildConfigFromFlags appsNewForConfig osappsNewForConfig
           coreNewForConfig o1 = inr o2 →
  convert o2 = None ∧ migrateHistory o2 = None
  ∧ ∀ c name rest s dc0 w1 dc1 w2,
      OsAppsClient o2 = Some c →
      DeploymentConfigNames o2 = name :: rest →
      DeploymentConfigs_Get c (Namespace o2) name (cluster s.1)
        = (inr dc0, w1) →
      DeploymentConfigs_Update c (Namespace o2) (dc_set_paused dc0) w1
        = (inr dc1, w2) →
      let after :=
        ({| cluster := w2; heap := heap s.1 |},
         s.2 ++ [Printed (Processing (Namespace o2) name);
                 CallGet (Namespace o2) name;
                 Printed (Pausing (dcNamespace dc0) (dcName dc0));
                 CallUpdate (Namespace o2) (dc_set_paused dc0);
                 Printed (Converting (dcNamespace dc0) (dcName dc0))]) in
      Run o2 s = (Panic (NilDereference AtConvertCall), after)
      ∧ commandRun BuildConfigFromFlags appsNewForConfig osappsNewForConfig
          coreNewForConfig
          (boundOptions filepathJoin out getenv kubeconfigFlag namespaceFlag)
          osArgs s
        = (ExitPanic (NilDereference AtConvertCall), after).
Proof.
  intros Hval Hcomp.
  destruct (Validate_keeps_functions _ _ _ Hval) as (Hcv1 & Hmh1 & Hout1 & _).
  destruct (Complete_keeps_functions _ _ Hcomp) as (Hcv2 & Hmh2 & Hout2 & _).
  assert (convert o2 = None) as Hcv by (by rewrite Hcv2, Hcv1).
  assert (migrateHistory o2 = None) as Hmh by (by rewrite Hmh2, Hmh1).
  assert (Output o2 = Some out) as Hout by (by rewrite Hout2, Hout1).
  split_and!; [done | done |].
  intros c name rest s dc0 w1 dc1 w2 Hc Hnames Hget Hupd after.
  assert (Run o2 s = (Panic (NilDereference AtConvertCall), after)) as Hrun.
  { unfold Run. rewrite Hnames. simpl. unfold mbind at 1, go_bind, bind.
    rewrite Run_body_nil_write. subst after. go_unfold. simpl.
    rewrite Hout, Hc, Hcv. simpl. rewrite Hget. simpl. rewrite Hupd. simpl.
    rewrite <- !app_assoc. reflexivity. }
  split; [exact Hrun|].
  unfold commandRun. rewrite Hval, Hcomp. by rewrite Hrun.
Qed.

End Command.

(** ** Runs on the in-memory cluster *)


(** [migrate-to-deployment web] pauses [web] and then calls the nil
    [m.convert]. *)
Lemma command_calls_nil_convert_witness :
  commandRun memBuildConfig memNewApps memNewOsApps memNewCore
    (boundOptions joinPath Stdout noEnvironment None None)
    ["migrate-to-deployment"; "web"] (start unqualifiedCluster)
  = (ExitPanic (NilDereference AtConvertCall),
     ({| cluster := {| configs := [dc_set_paused webUnqualified];
                       deployments := []; controllers := [] |};
         heap := [] |},
      [Printed (Processing "" "web"); CallGet "" "web";
       Printed (Pausing "" "web");
       CallUpdate "" (dc_set_paused webUnqualified);
       Printed (Converting "" "web")])).
Proof.
  pose (options := boundOptions (W:=Cluster) joinPath Stdout noEnvironment
                     None None).
  pose (o1 := withNames options ["web"]).
  pose (o2 := withClients o1 (Some memApps) (Some memOsApps) (Some memCore)).
  refine (proj2 (proj2 (proj2 (command_calls_nil_convert memBuildConfig
            memNewApps memNewOsApps memNewCore joinPath Stdout noEnvironment
            None None ["migrate-to-deployment"; "web"] o1 o2 _ _))
            memOsApps "web" [] (start unqualifiedCluster) webUnqualified
            unqualifiedCluster (dc_set_paused webUnqualified)
            {| configs := [dc_set_paused webUnqualified];
               deployments := []; controllers := [] |} _ _ _ _));
    reflexivity.
Defined.

(** A converter that rejects [web]: the run returns its error, [web]
    stays paused and [api] is never fetched. *)
Lemma Run_error_is_fatal_witness :
  Run (demoOptions ["web"; "api"] (Some rejectingConverter) (Some idleMigrator))
      (start demoCluster)
  = (Err UnsupportedStrategy,
     ({| cluster := pausedCluster; heap := [] |},
      [Printed (Processing "demo" "web"); CallGet "demo" "web";
       Printed (Pausing "demo" "web"); CallUpdate "demo" (dc_set_paused web);
       Printed (Converting "demo" "web");
       CallConvert (dc_set_paused web) nil_ptr])).
Proof.
  refine (proj1 (proj2 (Run_error_is_fatal
            (demoOptions ["web"; "api"] (Some rejectingConverter)
                         (Some idleMigrator))
            "web" ["api"] (start demoCluster) UnsupportedStrategy _
            (ConvertFails _ "web" (start demoCluster) Stdout memOsApps
               rejectingConverter web demoCluster (dc_set_paused web)
               pausedCluster UnsupportedStrategy
               {| cluster := pausedCluster; heap := [] |}
               _ _ _ _ _ _))) _); reflexivity.
Defined.

(** The history block on the cluster without replication controllers. *)
Lemma Run_history_empty_list_witness :
  Run_history webOptions (dc_set_paused web) nil_ptr
    (d_set_paused (deploymentOf web)) (start freshCluster)
  = (Ok (),
     ({| cluster := freshCluster; heap := [] |},
      [CallList "demo" (selectorString "web");
       CallMigrateHistory (d_set_paused (deploymentOf web)) []])).
Proof.
  refine (proj2 (Run_history_empty_list webOptions memCore (dc_set_paused web)
            nil_ptr (d_set_paused (deploymentOf web)) (start freshCluster)
            freshCluster _ _) idleMigrator _); reflexivity.
Defined.

(** ** The deployment is never created (C3, C4) *)

(** C3.  On the scenario, with a converter that builds the deployment and
    returns nil, the run does not force the paused flag and does not reach
    the create call: it panics at the write through the nil [deployment];
    the cluster holds no deployment, no create call was made, and the
    object the converter built stays on the heap, unpaused and out of
    reach. *)
Theorem Run_web_never_pauses_the_deployment :
  webRun.1 = Panic (NilDereference AtDeployment)
  ∧ deployments (cluster webRun.2.1) = []
  ∧ count Create webRun.2.2 = 0
  ∧ heap webRun.2.1 = [deploymentOf (dc_set_paused web)]
  ∧ dSpecPaused <$> heap webRun.2.1 = [false].
Proof. by vm_compute. Qed.

(** C4.  On the same scenario every call the run makes succeeds, and still
    only the first three operations of the workflow are performed, in
    order; create, list and the history migration are skipped, although
    the cluster holds two replication controllers of [web]. *)
Theorem Run_web_stops_after_convert :
  steps webRun.2.2 = [Fetch; Pause; Convert]
  ∧ steps webRun.2.2 ≠ workflow
  ∧ webRun.1 = Panic (NilDereference AtDeployment)
  ∧ length (controllers (cluster webRun.2.1)) = 2.
Proof. by vm_compute. Qed.

(** ** Flags among the names (C8) *)

(** C8.  For the command line [migrate-to-deployment -n demo], which names
    no deployment config, [Validate] returns no usage error: the two tokens
    of the namespace flag become the names, and the run fetches a config
    called [-n] from the cluster. *)
Theorem Validate_takes_flags_for_names :
  let options :=
    boundOptions (W:=Cluster) joinPath Stdout noEnvironment None (Some "demo") in
  Validate ["migrate-to-deployment"; "-n"; "demo"] options
  = Ok (withNames options ["-n"; "demo"])
  ∧ commandRun memBuildConfig memNewApps memNewOsApps memNewCore options
      ["migrate-to-deployment"; "-n"; "demo"] (start demoCluster)
    = (ExitOne NotFound,
       ({| cluster := demoCluster; heap := [] |},
        [Printed (Processing "demo" "-n"); CallGet "demo" "-n"])).
Proof. by vm_compute. Qed.

(** ** What an iteration leaves alone *)

Lemma memGet_cluster ns name c : (memGet ns name c).2 = c.
Proof. unfold memGet. by case_match. Qed.

Lemma memUpdate_frame ns dc c :
  controllers (memUpdate ns dc c).2 = controllers c
  ∧ deployments (memUpdate ns dc c).2 = deployments c
  ∧ length (configs (memUpdate ns dc c).2) = length (configs c).
Proof.
  unfold memUpdate. case_match; simpl; [|done].
  by rewrite length_map.
Qed.

(** On the in-memory cluster, with a converter that leaves the
    cluster alone, an iteration makes at most one update call and at most
    one create call (exactly one of each when it returns nil, which by
    [Run_body_log] it never does); the replication controllers of the cluster are the same afterwards, no
    deployment is gone and no config is gone. *)
Theorem Run_body_effects (m : MigrateOptions Cluster) name s :
  (∀ c, OsAppsClient m = Some c → c = memOsApps) →
  (∀ cv dc p w, convert m = Some cv → cluster (cv dc p w).2 = cluster w) →
  ∃ evs,
    (Run_body m name s).2.2 = s.2 ++ evs
    ∧ count Pause evs ≤ 1
    ∧ count Create evs ≤ 1
    ∧ ((Run_body m name s).1 = Ok () →
       count Pause evs = 1 ∧ count Create evs = 1)
    ∧ controllers (cluster (Run_body m name s).2.1) = controllers (cluster s.1)
    ∧ deployments (cluster s.1)
        `prefix_of` deployments (cluster (Run_body m name s).2.1)
    ∧ length (configs (cluster (Run_body m name s).2.1))
      = length (configs (cluster s.1)).
Proof.
  intros Hmem Hcv.
  rewrite Run_body_nil_write. go_unfold. simpl.
  destruct (Output m) as [out|]; simpl.
  2: { exists []. rewrite app_nil_r. split_and!; first [done | cbv; lia]. }
  destruct (OsAppsClient m) as [c|] eqn:Hc; simpl.
  2: { eexists. split; [reflexivity|]. split_and!; first [done | cbv; lia]. }
  rewrite (Hmem c eq_refl). simpl.
  pose proof (memGet_cluster (Namespace m) name (cluster s.1)) as Hget.
  destruct (memGet (Namespace m) name (cluster s.1)) as [[e|dc0] w1];
    simpl in *; subst w1.
  { eexists. rewrite <- app_assoc. split; [reflexivity|].
    split_and!; first [done | cbv; lia]. }
  destruct (memUpdate_frame (Namespace m) (dc_set_paused dc0) (cluster s.1))
    as (Hrc & Hd & Hdc).
  destruct (memUpdate (Namespace m) (dc_set_paused dc0) (cluster s.1))
    as [[e|dc1] w2]; simpl in *.
  { eexists. rewrite <- !app_assoc. split; [reflexivity|].
    split_and!; first [done | by rewrite Hd | cbv; lia]. }
  destruct (convert m) as [cv|] eqn:Hconv; simpl.
  2: { eexists. rewrite <- !app_assoc. split; [reflexivity|].
       split_and!; first [done | by rewrite Hd | cbv; lia]. }
  specialize (Hcv cv (dc_set_paused dc0) None
                  {| cluster := w2; heap := heap s.1 |} eq_refl).
  destruct (cv (dc_set_paused dc0) None _) as [[dc2|e|p] w3];
    simpl in *; rewrite Hcv;
    (eexists; rewrite <- !app_assoc; split; [reflexivity|];
     split_and!; first [done | by rewrite Hd | cbv; lia]).
Qed.

(** The scenario leaves the two replication controllers of [web] as they
    were. *)
Lemma Run_body_effects_witness :
  controllers (cluster (Run_body webOptions "web" (start demoCluster)).2.1)
  = controllers demoCluster.
Proof.
  destruct (Run_body_effects webOptions "web" (start demoCluster))
    as (evs & _ & _ & _ & _ & Hrc & _).
  - intros c [= <-]. reflexivity.
  - intros cv dc p w [= <-]. reflexivity.
  - exact Hrc.
Defined.

(** * Further properties of [main.go] *)

Section Loop.
Context {W : Type}.
Implicit Types (m : MigrateOptions W) (s : State W).

(** On a list that is not empty the loop is its first iteration: no
    iteration returns nil. *)
Lemma Run_loop_first m name rest s :
  Run_loop m (name :: rest) s = Run_body m name s.
Proof.
  simpl. unfold mbind, go_bind, bind.
  pose proof (Run_body_log m name s) as (_ & _ & _ & _ & Hne).
  destruct (Run_body m name s) as [[[]| |] s1]; simpl in *; congruence.
Qed.

(** X1.  [Run] returns nil exactly when the list of names is empty, and
    then it prints nothing, calls nothing and leaves the state as it was. *)
Theorem Run_returns_nil_iff_no_names m s :
  ((Run m s).1 = Ok () ↔ DeploymentConfigNames m = [])
  ∧ (DeploymentConfigNames m = [] → Run m s = (Ok (), s)).
Proof.
  assert (DeploymentConfigNames m = [] → Run m s = (Ok (), s)) as Hnil.
  { intros Hnames. unfold Run. by rewrite Hnames. }
  split; [|exact Hnil]. split.
  - unfold Run.
    by destruct (Run_loop_log m (DeploymentConfigNames m) s)
      as (_ & _ & _ & _ & Hres).
  - intros Hnames. by rewrite (Hnil Hnames).
Qed.

(** X2.  What a run prints and calls is an initial segment of six events,
    all about the first name: the "processing" line, the fetch of that name
    in the namespace of the options, the "pausing" line with the namespace
    and name of the config that the fetch returned, the update of that very
    config with the paused flag set, the "converting" line, and the convert
    call on that paused config with a nil target.  With a writer and a
    client the run gets as far as the update whenever the fetch succeeds. *)
Theorem Run_log_shape m s :
  ∃ evs, (Run m s).2.2 = s.2 ++ evs
  ∧ match DeploymentConfigNames m with
    | [] => evs = []
    | name :: _ =>
        evs `prefix_of` expectedLog m name s
        ∧ (is_Some (Output m) → is_Some (OsAppsClient m) →
           take 4 (expectedLog m name s) `prefix_of` evs)
    end.
Proof.
  unfold Run. destruct (DeploymentConfigNames m) as [|name rest].
  { exists []. simpl. by rewrite app_nil_r. }
  rewrite Run_loop_first, Run_body_nil_write. unfold expectedLog.
  go_unfold. simpl.
  destruct (Output m); simpl.
  2: { exists []. rewrite app_nil_r. split; [done|].
       split; [apply prefix_nil | by intros [? ?]]. }
  destruct (OsAppsClient m) as [c|]; simpl.
  2: { eexists. split; [reflexivity|].
       split; [by eexists | by intros _ [? ?]]. }
  destruct (DeploymentConfigs_Get c _ _ _) as [[e|dc0] w1]; simpl.
  { eexists. rewrite <- app_assoc. split; [reflexivity|].
    split; [by eexists | by eexists]. }
  destruct (DeploymentConfigs_Update c _ _ _) as [[e|dc1] w2]; simpl.
  { eexists. rewrite <- !app_assoc. split; [reflexivity|].
    split; [by eexists | by eexists]. }
  destruct (convert m) as [cv|]; simpl.
  2: { eexists. rewrite <- !app_assoc. split; [reflexivity|].
       split; [by eexists | by eexists]. }
  destruct (cv _ _ _) as [[dc2|e|p] w3]; simpl;
    (eexists; rewrite <- !app_assoc; split; [reflexivity|];
     split; [by eexists | by eexists]).
Qed.

(** X3.  [Run] on options that are not ready: without a writer it panics
    at the first line it would print, in the state it started in; with a
    writer but without the client for deployment configs it panics at the
    fetch, after the "processing" line and before any call. *)
Theorem Run_before_wiring m name rest s :
  DeploymentConfigNames m = name :: rest →
  (Output m = None → Run m s = (Panic (NilDereference AtOutput), s))
  ∧ (∀ out, Output m = Some out → OsAppsClient m = None →
       Run m s = (Panic (NilDereference AtOsAppsClient),
                  (s.1, s.2 ++ [Printed (Processing (Namespace m) name)]))).
Proof.
  intros Hnames. unfold Run. rewrite Hnames, Run_loop_first, Run_body_nil_write.
  go_unfold. simpl. split.
  - intros ->. reflexivity.
  - intros out -> ->. reflexivity.
Qed.

(** X4.  Pausing is idempotent and keeps the local object: when the fetched
    config is paused already, the update sends it unchanged, and what the
    block hands on is the fetched config, not the object that the update
    call returned. *)
Theorem Run_pause_is_idempotent m out c name s dc0 w1 dc1 w2 :
  Output m = Some out →
  OsAppsClient m = Some c →
  DeploymentConfigs_Get c (Namespace m) name (cluster s.1) = (inr dc0, w1) →
  dcSpecPaused dc0 = true →
  DeploymentConfigs_Update c (Namespace m) dc0 w1 = (inr dc1, w2) →
  Run_pause m name s
  = (Ok dc0,
     ({| cluster := w2; heap := heap s.1 |},
      s.2 ++ [Printed (Processing (Namespace m) name);
              CallGet (Namespace m) name;
              Printed (Pausing (dcNamespace dc0) (dcName dc0));
              CallUpdate (Namespace m) dc0])).
Proof.
  intros Hout Hc Hget Hpaused Hupd.
  assert (dc_set_paused dc0 = dc0) as Hsame.
  { destruct dc0; simpl in *; by subst. }
  go_unfold. simpl. rewrite Hout, Hc. simpl. rewrite Hget. simpl.
  rewrite Hsame, Hupd. simpl. rewrite <- !app_assoc. reflexivity.
Qed.

End Loop.

Section CommandLine.
Context {W Config : Type}.
Variable BuildConfigFromFlags : string → string → error + Config.
Variable appsNewForConfig : Config → error + AppsV1Interface W.
Variable osappsNewForConfig : Config → error + OsAppsV1Interface W.
Variable coreNewForConfig : Config → error + CoreV1Interface W.
Variable filepathJoin : list string → string.
Implicit Types (m options : MigrateOptions W) (s : State W).

(** What [Complete] returns when it returns nil. *)
Lemma Complete_inr m m' :
  Complete BuildConfigFromFlags appsNewForConfig osappsNewForConfig
           coreNewForConfig m = inr m' →
  ∃ config apps osapps core,
    BuildConfigFromFlags "" (kubeconfig m) = inr config
    ∧ appsNewForConfig config = inr apps
    ∧ osappsNewForConfig config = inr osapps
    ∧ coreNewForConfig config = inr core
    ∧ m' = withClients m (Some apps) (Some osapps) (Some core).
Proof.
  unfold Complete.
  destruct (BuildConfigFromFlags "" (kubeconfig m)) as [e|config] eqn:Hb;
    [discriminate|].
  destruct (appsNewForConfig config) as [e|apps] eqn:Ha; [discriminate|].
  destruct (osappsNewForConfig config) as [e|osapps] eqn:Ho; [discriminate|].
  destruct (coreNewForConfig config) as [e|core] eqn:Hc; [discriminate|].
  intros [= <-]. by exists config, apps, osapps, core.
Qed.

(** X5.  The three clients come from one configuration, loaded from the
    path in the [kubeconfig] field with an empty master URL: when
    [Complete] returns nil all four constructors have succeeded, the three
    client fields are set and no other field has changed. *)
Theorem Complete_sets_all_clients m m' :
  Complete BuildConfigFromFlags appsNewForConfig osappsNewForConfig
           coreNewForConfig m = inr m' →
  (∃ config apps osapps core,
     BuildConfigFromFlags "" (kubeconfig m) = inr config
     ∧ appsNewForConfig config = inr apps ∧ AppsClient m' = Some apps
     ∧ osappsNewForConfig config = inr osapps ∧ OsAppsClient m' = Some osapps
     ∧ coreNewForConfig config = inr core ∧ CoreClient m' = Some core)
  ∧ withClients m' (AppsClient m) (OsAppsClient m) (CoreClient m) = m.
Proof.
  intros Hcomp.
  destruct (Complete_inr _ _ Hcomp)
    as (config & apps & osapps & core & Hb & Ha & Ho & Hc & ->).
  split; [|by destruct m].
  by exists config, apps, osapps, core.
Qed.

(** X6.  The command fails before it prints or calls anything when
    [os.Args] is empty (the slice expression panics), when it holds the
    program name only (usage error), and when [Complete] returns an error:
    the state is the one it started in. *)
Theorem commandRun_early_failures options osArgs s :
  (osArgs = [] →
   commandRun BuildConfigFromFlags appsNewForConfig osappsNewForConfig
              coreNewForConfig options osArgs s
   = (ExitPanic SliceBoundsOutOfRange, s))
  ∧ (length osArgs = 1 →
     commandRun BuildConfigFromFlags appsNewForConfig osappsNewForConfig
                coreNewForConfig options osArgs s
     = (ExitOne usageError, s))
  ∧ (∀ o1 e,
       Validate osArgs options = Ok o1 →
       Complete BuildConfigFromFlags appsNewForConfig osappsNewForConfig
                coreNewForConfig o1 = inl e →
       commandRun BuildConfigFromFlags appsNewForConfig osappsNewForConfig
                  coreNewForConfig options osArgs s
       = (ExitOne e, s)).
Proof.
  unfold commandRun. split_and!.
  - intros ->. reflexivity.
  - intros Hlen. unfold Validate. by rewrite bool_decide_eq_true_2.
  - intros o1 e -> ->. reflexivity.
Qed.

(** X7.  The command never ends with status zero: whatever the options,
    the arguments and the cluster, it exits with an error or panics. *)
Theorem commandRun_never_exits_zero options osArgs s :
  (commandRun BuildConfigFromFlags appsNewForConfig osappsNewForConfig
              coreNewForConfig options osArgs s).1 ≠ ExitZero.
Proof.
  unfold commandRun.
  destruct (Validate osArgs options) as [o1| |] eqn:Hval; [|done|done].
  destruct (Complete _ _ _ _ o1) as [e|o2] eqn:Hcomp; [done|].
  assert (DeploymentConfigNames o2 ≠ []) as Hnames.
  { destruct (Complete_inr _ _ Hcomp) as (? & ? & ? & ? & _ & _ & _ & _ & ->).
    simpl. unfold Validate in Hval. case_bool_decide as Hlen; [done|].
    destruct osArgs as [|prog [|tok rest]]; simplify_eq/=; done. }
  unfold Run.
  destruct (Run_loop_log o2 (DeploymentConfigNames o2) s)
    as (_ & _ & _ & _ & Hnil).
  destruct (Run_loop o2 _ s) as [[[]| |] s1]; simpl in *; [|done|done].
  by destruct Hnames, Hnil.
Qed.

(** X8.  The command as [NewMigrateCommand] builds it touches the first
    token after the program name at most: it fetches a config of that name
    and updates the config that the fetch returned, with the paused flag
    set, both in the namespace of the [--namespace] flag (the empty string
    without the flag), and makes no other call; the heap of deployments is
    as before.  When [Validate] and [Complete] succeed, what it prints and
    calls is the log of the first name as far as the update at least, and
    as far as the "converting" line at most. *)
Theorem command_stops_after_pause out getenv kubeconfigFlag namespaceFlag
    osArgs s :
  ∃ evs,
    (commandRun BuildConfigFromFlags appsNewForConfig osappsNewForConfig
       coreNewForConfig
       (boundOptions filepathJoin out getenv kubeconfigFlag namespaceFlag)
       osArgs s).2
    = ({| cluster :=
            cluster (commandRun BuildConfigFromFlags appsNewForConfig
                       osappsNewForConfig coreNewForConfig
                       (boundOptions filepathJoin out getenv kubeconfigFlag
                                     namespaceFlag) osArgs s).2.1;
          heap := heap s.1 |}, s.2 ++ evs)
    ∧ steps evs `prefix_of` [Fetch; Pause]
    ∧ fetched evs `prefix_of` take 1 (drop 1 osArgs)
    ∧ Forall (inNamespace (default "" namespaceFlag)) evs
    ∧ ∀ (o1 o2 : MigrateOptions W) name rest,
        Validate osArgs
          (boundOptions filepathJoin out getenv kubeconfigFlag namespaceFlag)
          = Ok o1 →
        Complete BuildConfigFromFlags appsNewForConfig osappsNewForConfig
                 coreNewForConfig o1 = inr o2 →
        DeploymentConfigNames o2 = name :: rest →
        take 4 (expectedLog o2 name s) `prefix_of` evs
        ∧ evs `prefix_of` take 5 (expectedLog o2 name s).
Proof.
  assert (∀ st : State W, st = ({| cluster := cluster st.1; heap := heap st.1 |},
                                st.2 ++ [])) as Hsame.
  { intros [[w h] l]. simpl. by rewrite app_nil_r. }
  unfold commandRun.
  destruct (Validate osArgs _) as [o1| |] eqn:Hval.
  2,3: exists []; simpl; split_and!;
         [apply Hsame | apply prefix_nil | apply prefix_nil | constructor
         | by intros ].
  destruct (Complete _ _ _ _ o1) as [e|o2] eqn:Hcomp.
  { exists []. simpl. split_and!;
      [apply Hsame | apply prefix_nil | apply prefix_nil | constructor
      | intros ? ? ? ? [= <-]; congruence]. }
  destruct (Complete_inr _ _ Hcomp)
    as (config & apps & osapps & core & _ & _ & _ & _ & ->).
  unfold Validate in Hval. case_bool_decide as Hlen; [done|].
  destruct osArgs as [|prog [|tok rest]]; simplify_eq/=.
  unfold Run. simpl DeploymentConfigNames.
  rewrite Run_loop_first, Run_body_nil_write. unfold expectedLog.
  go_unfold. simpl.
  destruct (DeploymentConfigs_Get osapps _ _ _) as [[e|dc0] w1] eqn:Hget;
    simpl.
  { eexists. rewrite <- !app_assoc. split; [reflexivity|].
    split_and!; [by eexists | done | by repeat constructor |].
    intros o1' o2' name' rest' Hv Hc Hn. simplify_eq.
    rewrite Hcomp in Hc. simplify_eq/=. rewrite Hget. simpl.
    split; by eexists. }
  destruct (DeploymentConfigs_Update osapps _ _ _) as [[e|dc1] w2]; simpl.
  all: eexists; rewrite <- !app_assoc; (split; [reflexivity|]);
    (split_and!; [by eexists | done | by repeat constructor |]);
    intros o1' o2' name' rest' Hv Hc Hn; simplify_eq;
    rewrite Hcomp in Hc; simplify_eq/=; rewrite Hget; simpl;
    split; by eexists.
Qed.

(** The length of a string is zero for the empty string only. *)
Lemma length_zero_empty (x : string) : String.length x = 0 ↔ x = "".
Proof. destruct x; simpl; split; (done || discriminate). Qed.

Lemma homeDir_empty (getenv : string → string) :
  getenv "HOME" = "" ∧ getenv "USERPROFILE" = "" ↔ String.length (homeDir getenv) = 0.
Proof.
  rewrite length_zero_empty. unfold homeDir. case_bool_decide as Hhome.
  - split; [by intros [? _] | done].
  - rewrite Hhome. split; [by intros [_ ?] | done].
Qed.

(** X9.  [homeDir] prefers [HOME]: it is the value of [HOME] when that is
    not empty and the value of [USERPROFILE] otherwise, so it is empty
    exactly when both variables are empty or unset. *)
Theorem homeDir_prefers_HOME (getenv : string → string) :
  (getenv "HOME" ≠ "" → homeDir getenv = getenv "HOME")
  ∧ (getenv "HOME" = "" → homeDir getenv = getenv "USERPROFILE")
  ∧ (homeDir getenv = "" ↔ getenv "HOME" = "" ∧ getenv "USERPROFILE" = "").
Proof.
  unfold homeDir. case_bool_decide as Hhome.
  - split_and!; [done | done | split; [done | by intros [? _]]].
  - rewrite Hhome. split_and!; [done | done | split; [done | by intros [_ ?]]].
Qed.

(** X10.  The configuration is loaded from the value of [--kubeconfig] when
    the flag is given, whatever the environment; without the flag from
    [.kube/config] under the home directory, and from the empty path when
    there is no home directory.  When it cannot be loaded the command exits
    with that error before it prints or calls anything. *)
Theorem command_loads_kubeconfig out getenv kubeconfigFlag namespaceFlag
    osArgs (o1 : MigrateOptions W) s :
  Validate osArgs
    (boundOptions filepathJoin out getenv kubeconfigFlag namespaceFlag)
    = Ok o1 →
  kubeconfig o1
  = match kubeconfigFlag with
    | Some path => path
    | None =>
        if decide (getenv "HOME" = "" ∧ getenv "USERPROFILE" = "") then ""
        else filepathJoin [homeDir getenv; ".kube"; "config"]
    end
  ∧ ∀ e, BuildConfigFromFlags "" (kubeconfig o1) = inl e →
         commandRun BuildConfigFromFlags appsNewForConfig osappsNewForConfig
           coreNewForConfig
           (boundOptions filepathJoin out getenv kubeconfigFlag namespaceFlag)
           osArgs s
         = (ExitOne e, s).
Proof.
  intros Hval. split.
  - unfold Validate in Hval. case_bool_decide; [done|].
    destruct osArgs; simplify_eq/=.
    destruct kubeconfigFlag as [path|]; simpl; [done|].
    pose proof (homeDir_empty getenv) as Hhome.
    case_bool_decide as Hlen; case_decide as Henv; try done.
    + apply Hhome in Henv. lia.
    + destruct Henv. apply Hhome. lia.
  - intros e Hbuild. unfold commandRun. rewrite Hval.
    unfold Complete. by rewrite Hbuild.
Qed.

End CommandLine.

Section History.
Context {W : Type}.
Implicit Types (m : MigrateOptions W) (s : State W).

(** The lines of the controllers, one for each, in the order of the list. *)
Lemma progressEach_run m out items s :
  Output m = Some out →
  progressEach m items s
  = (Ok (), (s.1, s.2 ++ ((λ rc, Printed (ControllerName (rcName rc))) <$> items))).
Proof.
  intros Hout. revert s. induction items as [|rc items IH]; intros s; simpl.
  { by rewrite app_nil_r, <- surjective_pairing. }
  unfold mbind, go_bind, bind, progress, emit. rewrite Hout. simpl.
  rewrite IH. simpl. by rewrite <- app_assoc.
Qed.

(** X11.  The loop over the controllers prints one line for each, with its
    name, in the order of the list, changes nothing else and returns nil;
    for the empty list it does nothing, with or without a writer; without
    a writer it panics at the first controller. *)
Theorem progressEach_prints_in_order m items s :
  (∀ out, Output m = Some out →
     progressEach m items s
     = (Ok (), (s.1, s.2 ++ ((λ rc, Printed (ControllerName (rcName rc)))
                             <$> items))))
  ∧ (items = [] → progressEach m items s = (Ok (), s))
  ∧ (Output m = None → items ≠ [] →
     progressEach m items s = (Panic (NilDereference AtOutput), s)).
Proof.
  split_and!.
  - intros out Hout. by apply progressEach_run with out.
  - intros ->. reflexivity.
  - intros Hout Hne. destruct items as [|rc items]; [done|]. simpl.
    unfold mbind, go_bind, bind, progress, crash. by rewrite Hout.
Qed.

(** X12.  When the list call returns controllers, the history block prints
    their number with the namespace and name of the object behind
    [deployment], then their names, and calls the history migration with
    the deployment that create returned and with the list exactly as the
    client returned it; the list call goes to the namespace of the options
    with the selector of the config's name. *)
Theorem Run_history_hands_over_list m out c dc l d newDeployment items w' s :
  Output m = Some out →
  CoreClient m = Some c →
  ReplicationControllers_List c (Namespace m) (selectorString (dcName dc))
    (cluster s.1) = (inr items, w') →
  items ≠ [] →
  heap s.1 !! l = Some d →
  Run_history m dc (Some l) newDeployment s
  = callMigrateHistory m newDeployment items
      ({| cluster := w'; heap := heap s.1 |},
       s.2 ++ CallList (Namespace m) (selectorString (dcName dc))
           :: Printed (FoundControllers (length items) (dNamespace d) (dName d))
           :: ((λ rc, Printed (ControllerName (rcName rc))) <$> items)).
Proof.
  intros Hout Hc Hlist Hne Hl.
  unfold Run_history, listControllers, reportControllers, apiCall, load, deref,
    mbind at 1 2, go_bind, bind.
  rewrite Hc. simpl. rewrite Hlist. simpl.
  rewrite bool_decide_eq_true_2 by (destruct items; [done | simpl; lia]).
  unfold mbind, go_bind, bind, option_bind, progress, emit. simpl.
  rewrite Hl, Hout. simpl.
  rewrite (progressEach_run m out) by done. simpl.
  by rewrite <- !app_assoc.
Qed.

(** X13.  The history block stops before the history migration when the
    list call returns an error, which it returns, and when controllers
    were found but [deployment] is nil, where it panics at the line that
    reports them: in both cases the log ends with the list call. *)
Theorem Run_history_stops_before_migration m c dc deployment newDeployment s :
  CoreClient m = Some c →
  (∀ e w',
     ReplicationControllers_List c (Namespace m) (selectorString (dcName dc))
       (cluster s.1) = (inl e, w') →
     Run_history m dc deployment newDeployment s
     = (Err e, ({| cluster := w'; heap := heap s.1 |},
                s.2 ++ [CallList (Namespace m) (selectorString (dcName dc))])))
  ∧ (∀ items w',
       ReplicationControllers_List c (Namespace m) (selectorString (dcName dc))
         (cluster s.1) = (inr items, w') →
       items ≠ [] →
       deployment = nil_ptr →
       Run_history m dc deployment newDeployment s
       = (Panic (NilDereference AtDeployment),
          ({| cluster := w'; heap := heap s.1 |},
           s.2 ++ [CallList (Namespace m) (selectorString (dcName dc))]))).
Proof.
  intros Hc. split.
  - intros e w' Hlist.
    unfold Run_history, listControllers, apiCall, mbind, go_bind, bind.
    rewrite Hc. simpl. by rewrite Hlist.
  - intros items w' Hlist Hne ->.
    unfold Run_history, listControllers, reportControllers, apiCall, load,
      deref, mbind at 1 2, go_bind, bind.
    rewrite Hc. simpl. rewrite Hlist. simpl.
    rewrite bool_decide_eq_true_2 by (destruct items; [done | simpl; lia]).
    reflexivity.
Qed.

End History.

Section Reach.
Context {W : Type}.
Implicit Types (m : MigrateOptions W) (s : State W).

(** X14.  Only the first name matters: a run over a list of names is the
    run over its first name alone, in result, cluster, heap and log; the
    names after the first are never looked at. *)
Theorem Run_ignores_later_names m name rest s :
  Run_loop m (name :: rest) s = Run_loop m [name] s
  ∧ (DeploymentConfigNames m = name :: rest →
     Run m s = Run (withNames m [name]) s).
Proof.
  assert (Run_loop m (name :: rest) s = Run_loop m [name] s) as Hloop
    by (by rewrite !Run_loop_first).
  split; [exact Hloop|].
  intros Hnames. unfold Run. rewrite Hnames. simpl DeploymentConfigNames.
  rewrite !Run_loop_first, !Run_body_nil_write. reflexivity.
Qed.

(** X15.  [Run] itself never allocates or writes a deployment: when the
    converter leaves the heap of deployments as it is, so does the run;
    in particular with [m.convert] nil. *)
Theorem Run_keeps_heap m s :
  (∀ cv dc p w, convert m = Some cv → heap (cv dc p w).2 = heap w) →
  heap (Run m s).2.1 = heap s.1.
Proof.
  intros Hcv. unfold Run.
  destruct (DeploymentConfigNames m) as [|name rest]; [done|].
  rewrite Run_loop_first, Run_body_nil_write. go_unfold. simpl.
  destruct (Output m); simpl; [|done].
  destruct (OsAppsClient m) as [c|]; simpl; [|done].
  destruct (DeploymentConfigs_Get c _ _ _) as [[e|dc0] w1]; simpl; [done|].
  destruct (DeploymentConfigs_Update c _ _ _) as [[e|dc1] w2]; simpl; [done|].
  destruct (convert m) as [cv|]; simpl; [|done].
  specialize (Hcv cv (dc_set_paused dc0) None
                  {| cluster := w2; heap := heap s.1 |} eq_refl).
  by destruct (cv _ _ _) as [[dc2|e|p] w3].
Qed.

End Reach.

(** ** The further properties on the in-memory cluster *)

(** [Run] on the options of [NewMigrateCommand] before [Complete], and on
    options without a writer. *)
Lemma Run_before_wiring_witness :
  Run unwiredOptions (start demoCluster)
  = (Panic (NilDereference AtOsAppsClient),
     ({| cluster := demoCluster; heap := [] |},
      [Printed (Processing "" "web")]))
  ∧ Run mutedOptions (start demoCluster)
    = (Panic (NilDereference AtOutput), start demoCluster).
Proof.
  split.
  - refine (proj2 (Run_before_wiring unwiredOptions "web" []
                     (start demoCluster) _) Stdout _ _); reflexivity.
  - refine (proj1 (Run_before_wiring mutedOptions "web" []
                     (start demoCluster) _) _); reflexivity.
Defined.

(** Pausing [web] a second time. *)
Lemma Run_pause_is_idempotent_witness :
  Run_pause (demoOptions ["web"] None None) "web" (start pausedCluster)
  = (Ok (dc_set_paused web),
     ({| cluster := pausedCluster; heap := [] |},
      [Printed (Processing "demo" "web"); CallGet "demo" "web";
       Printed (Pausing "demo" "web");
       CallUpdate "demo" (dc_set_paused web)])).
Proof.
  refine (Run_pause_is_idempotent (demoOptions ["web"] None None) Stdout
            memOsApps "web" (start pausedCluster) (dc_set_paused web)
            pausedCluster (dc_set_paused web) pausedCluster _ _ _ _ _);
    reflexivity.
Defined.

(** [Complete] with the constructors of the in-memory cluster. *)
Lemma Complete_sets_all_clients_witness :
  withClients
    (withClients unwiredOptions (Some memApps) (Some memOsApps) (Some memCore))
    None None None
  = unwiredOptions.
Proof.
  refine (proj2 (Complete_sets_all_clients memBuildConfig memNewApps
                   memNewOsApps memNewCore unwiredOptions
                   (withClients unwiredOptions (Some memApps) (Some memOsApps)
                                (Some memCore)) _)); reflexivity.
Defined.

(** The command line [migrate-to-deployment]. *)
Lemma commandRun_early_failures_witness :
  commandRun memBuildConfig memNewApps memNewOsApps memNewCore
    (boundOptions joinPath Stdout noEnvironment None None)
    ["migrate-to-deployment"] (start demoCluster)
  = (ExitOne usageError, start demoCluster).
Proof.
  refine (proj1 (proj2 (commandRun_early_failures memBuildConfig memNewApps
                          memNewOsApps memNewCore _ _ _)) _); reflexivity.
Defined.

(** Without [--kubeconfig] and without a home directory the path is
    empty, and the strict loader rejects it. *)
Lemma command_loads_kubeconfig_witness :
  commandRun strictBuildConfig memNewApps memNewOsApps memNewCore
    (boundOptions joinPath Stdout noEnvironment None None)
    ["migrate-to-deployment"; "web"] (start unqualifiedCluster)
  = (ExitOne ValidationError, start unqualifiedCluster).
Proof.
  refine (proj2 (command_loads_kubeconfig strictBuildConfig memNewApps
                   memNewOsApps memNewCore joinPath Stdout noEnvironment
                   None None ["migrate-to-deployment"; "web"]
                   (withNames (boundOptions joinPath Stdout noEnvironment
                                 None None) ["web"])
                   (start unqualifiedCluster) _) ValidationError _);
    reflexivity.
Defined.

(** The lines of the two controllers of [web]. *)
Lemma progressEach_prints_in_order_witness :
  progressEach webOptions (controllers demoCluster) (start demoCluster)
  = (Ok (), ({| cluster := demoCluster; heap := [] |},
             [Printed (ControllerName "web-1");
              Printed (ControllerName "web-2")])).
Proof.
  refine (proj1 (progressEach_prints_in_order webOptions
                   (controllers demoCluster) (start demoCluster)) Stdout _);
    reflexivity.
Defined.

(** The history block with the deployment of [web] on the heap. *)
Lemma Run_history_hands_over_list_witness :
  Run_history webOptions (dc_set_paused web) (Some 0)
    (d_set_paused (deploymentOf web)) builtState
  = (Ok (),
     (builtState.1,
      [CallList "demo" (selectorString "web");
       Printed (FoundControllers 2 "demo" "web");
       Printed (ControllerName "web-1"); Printed (ControllerName "web-2");
       CallMigrateHistory (d_set_paused (deploymentOf web))
                          (controllers demoCluster)])).
Proof.
  rewrite (Run_history_hands_over_list webOptions Stdout memCore
             (dc_set_paused web) 0 (deploymentOf web)
             (d_set_paused (deploymentOf web)) (controllers demoCluster)
             demoCluster builtState);
    [reflexivity | reflexivity | reflexivity | reflexivity | discriminate
    | reflexivity].
Defined.

(** A failing list call, and controllers found with [deployment] nil. *)
Lemma Run_history_stops_before_migration_witness :
  Run_history brokenOptions (dc_set_paused web) nil_ptr
    (d_set_paused (deploymentOf web)) (start demoCluster)
  = (Err Transport,
     ({| cluster := demoCluster; heap := [] |},
      [CallList "demo" (selectorString "web")]))
  ∧ Run_history webOptions (dc_set_paused web) nil_ptr
      (d_set_paused (deploymentOf web)) (start demoCluster)
    = (Panic (NilDereference AtDeployment),
       ({| cluster := demoCluster; heap := [] |},
        [CallList "demo" (selectorString "web")])).
Proof.
  split.
  - refine (proj1 (Run_history_stops_before_migration brokenOptions brokenCore
                     (dc_set_paused web) nil_ptr
                     (d_set_paused (deploymentOf web)) (start demoCluster) _)
              Transport demoCluster _); reflexivity.
  - refine (proj2 (Run_history_stops_before_migration webOptions memCore
                     (dc_set_paused web) nil_ptr
                     (d_set_paused (deploymentOf web)) (start demoCluster) _)
              (controllers demoCluster) demoCluster _ _ _);
      (reflexivity || discriminate).
Defined.

(** The rejecting converter leaves the heap alone. *)
Lemma Run_keeps_heap_witness :
  heap (Run (demoOptions ["web"] (Some rejectingConverter) None)
            builtState).2.1
  = [deploymentOf web].
Proof.
  refine (Run_keeps_heap (demoOptions ["web"] (Some rejectingConverter) None)
            builtState _).
  intros cv dc p w [= <-]. reflexivity.
Defined.

(** * The steps after convert are never reached (C5, C6, C7, C10) *)



(** C7.  With the names [web] and [api], both in the cluster, the run
    takes the first and never begins the second: [web] is fetched, paused
    and converted, the run panics, and [api] is neither fetched nor
    paused. *)
Theorem Run_web_api_never_begins_api :
  twoRun.1 = Panic (NilDereference AtDeployment)
  ∧ fetched twoRun.2.2 = ["web"]
  ∧ fetched twoRun.2.2 ≠ ["web"; "api"]
  ∧ steps twoRun.2.2 = [Fetch; Pause; Convert]
  ∧ configs (cluster twoRun.2.1) = [dc_set_paused web; api].
Proof. by vm_compute. Qed.

